(* Verification of PyGW2/calendar.py: the Mauvelian calendar (MauvelianSeason,
   MauvelianDate) and the reference-point DateConverter.

   Python ints are modelled as Z.  A Python exception is an [Err] of the
   [result] monad; a mutated object is returned as the new value (or as the new
   converter state).  Real (Gregorian) dates are modelled by their proleptic
   ordinal, as datetime.date.toordinal() gives it. *)

From Stdlib Require Import ZArith Lia Bool String DecimalString.
Open Scope Z_scope.

(** * Python exceptions and the error monad *)

Inductive PyError :=
| ValueError
| TypeError
| NameError
| RuntimeError
| OverflowError
| RecursionError.

Inductive result (A : Type) :=
| Ok : A -> result A
| Err : PyError -> result A.
Arguments Ok {A} _.
Arguments Err {A} _.

Definition bind {A B} (r : result A) (f : A -> result B) : result B :=
  match r with
  | Ok a => f a
  | Err e => Err e
  end.

Notation "x <- r ; k" := (bind r (fun x => k))
  (at level 61, r at next level, right associativity).

(** * Python's true division of two ints, [a / b]

    CPython's [long_true_divide] returns the binary64 value nearest to the
    exact quotient (ties to even), and raises OverflowError when that value
    is 2^1024 or more.  A float result is written [(m, e)] for the value
    m * 2^e. *)

(** [N / D] rounded to the nearest integer, ties to even ([N >= 0], [D > 0]). *)
Definition round_half_even (N D : Z) : Z :=
  let q := N / D in
  let r := N mod D in
  if 2 * r <? D then q
  else if D <? 2 * r then q + 1
  else if Z.even q then q else q + 1.

Definition truediv (a b : Z) : result (Z * Z) :=
  if a =? 0 then Ok (0, 0) else
  let n := Z.abs a in
  (* [E] = floor (log2 (n / b)), read off an integer scaled by 2^p >= 2 * b *)
  let p := Z.log2 b + 1 in
  let E := Z.log2 (n * 2 ^ p / b) - p in
  (* 53 significant bits: the mantissa lies in [2^52, 2^53] *)
  let s := 52 - E in
  let m := if 0 <=? s then round_half_even (n * 2 ^ s) b
           else round_half_even n (b * 2 ^ (- s)) in
  if 1024 <=? Z.log2 m - s then Err OverflowError
  else Ok (Z.sgn a * m, - s).

(** math.floor and math.ceil of the float m * 2^e *)
Definition py_floor (f : Z * Z) : Z :=
  let '(m, e) := f in
  if 0 <=? e then m * 2 ^ e else m / 2 ^ (- e).

Definition py_ceil (f : Z * Z) : Z :=
  let '(m, e) := f in
  if 0 <=? e then m * 2 ^ e else - ((- m) / 2 ^ (- e)).

(** * MauvelianSeason *)

Inductive MauvelianSeason := ZEPHYR | PHOENIX | SCION | COLOSSUS.

(** [daysRange] as the Python [range(start, stop)]: the pair (start, stop). *)
Definition daysRange (s : MauvelianSeason) : Z * Z :=
  match s with
  | ZEPHYR => (1, 91)
  | PHOENIX => (91, 181)
  | SCION => (181, 271)
  | COLOSSUS => (271, 366)
  end.

Definition range_start (r : Z * Z) : Z := fst r.
Definition range_len (r : Z * Z) : Z := Z.max 0 (snd r - fst r).
Definition in_range (x : Z) (r : Z * Z) : bool := (fst r <=? x) && (x <? snd r).

Definition seasonOf (day_of_year : Z) : result MauvelianSeason :=
  if negb ((1 <=? day_of_year) && (day_of_year <=? 365)) then Err ValueError
  else if day_of_year <=? 180 then
    if day_of_year <=? 90 then Ok ZEPHYR else Ok PHOENIX
  else
    if day_of_year <=? 270 then Ok SCION else Ok COLOSSUS.

(** * MauvelianDate *)

(** The only attribute of a MauvelianDate is the day offset [_day]. *)
Record MauvelianDate := mkDate { day : Z }.

(** [MauvelianDate.__init__(year, day, season=None)] *)
Definition MauvelianDate_init (year : Z) (day0 : Z) (season : option MauvelianSeason)
  : result MauvelianDate :=
  if year =? 0 then Err ValueError else
  let shifted :=
    match season with
    | None => Ok day0
    | Some s =>
        if negb ((1 <=? day0) && (day0 <=? range_len (daysRange s))) then Err ValueError
        else Ok (day0 + range_start (daysRange s) - 1)
    end in
  d <- shifted;
  if negb ((1 <=? d) && (d <=? 365)) then Err ValueError
  else if 0 <? year then Ok (mkDate (d + 365 * (year - 1)))
  else Ok (mkDate (- d - 365 * (year + 1))).

(** [year]: [math.ceil(self._day / 365)] or [math.floor(self._day / 365)]. *)
Definition year (self : MauvelianDate) : result Z :=
  if 0 <? day self then f <- truediv (day self) 365; Ok (py_ceil f)
  else f <- truediv (day self) 365; Ok (py_floor f).

(** [dayOfYear]: [abs(self._day % 365)], with 0 read as 365.  Python's [%]
    takes the sign of the divisor, as Z.modulo does. *)
Definition dayOfYear (self : MauvelianDate) : Z :=
  let d := Z.abs (day self mod 365) in
  if d =? 0 then 365 else d.

Definition dayOfSeason (self : MauvelianDate) : result Z :=
  s <- seasonOf (dayOfYear self);
  Ok (dayOfYear self - range_start (daysRange s) + 1).

Definition season (self : MauvelianDate) : result MauvelianSeason :=
  seasonOf (dayOfYear self).

Definition lt (self other : MauvelianDate) : bool := day self <? day other.
Definition gt (self other : MauvelianDate) : bool := day other <? day self.
Definition eq (self other : MauvelianDate) : bool := day self =? day other.

(** [addDays] mutates [self] and returns it: here, the updated date. *)
Definition addDays (self : MauvelianDate) (days : Z) : MauvelianDate :=
  let d := day self + days in
  if d =? 0 then
    if 0 <? days then mkDate 1 else mkDate 1
  else mkDate d.

Definition daysBetween (self other : MauvelianDate) : Z :=
  Z.abs (day self - day other).

(** [__add__]: [MauvelianDate(self.year, self.dayOfYear).addDays(days)] *)
Definition add (self : MauvelianDate) (days : Z) : result MauvelianDate :=
  y <- year self;
  c <- MauvelianDate_init y (dayOfYear self) None;
  Ok (addDays c days).

(** [__sub__]: with a MauvelianDate argument it is [daysBetween]; with an int
    it evaluates [self - other] again, i.e. calls [__sub__] on the same
    arguments.  [depth] is the room left under Python's recursion limit; when
    it is used up Python raises RecursionError. *)
Inductive SubArg :=
| SubDate : MauvelianDate -> SubArg
| SubInt : Z -> SubArg.

Inductive SubValue :=
| VInt : Z -> SubValue
| VDate : MauvelianDate -> SubValue.

Fixpoint sub (depth : nat) (self : MauvelianDate) (other : SubArg) : result SubValue :=
  match depth with
  | O => Err RecursionError
  | S depth' =>
      match other with
      | SubDate o => Ok (VInt (daysBetween self o))
      | SubInt _ => sub depth' self other
      end
  end.

(** Python's default recursion limit. *)
Definition recursion_limit : nat := 1000.

(** * Real dates (datetime.date), as proleptic Gregorian ordinals *)

Definition is_leap (y : Z) : bool :=
  (Z.eqb (y mod 4) 0) && (negb (Z.eqb (y mod 100) 0) || Z.eqb (y mod 400) 0).

Definition days_before_year (y : Z) : Z :=
  let y1 := y - 1 in y1 * 365 + y1 / 4 - y1 / 100 + y1 / 400.

Definition days_before_month (y m : Z) : Z :=
  let base :=
    match m with
    | 1 => 0 | 2 => 31 | 3 => 59 | 4 => 90 | 5 => 120 | 6 => 151
    | 7 => 181 | 8 => 212 | 9 => 243 | 10 => 273 | 11 => 304 | _ => 334
    end in
  if (2 <? m) && is_leap y then base + 1 else base.

(** [date(y, m, d).toordinal()] *)
Definition ymd2ord (y m d : Z) : Z := days_before_year y + days_before_month y m + d.

Definition MAXORDINAL : Z := ymd2ord 9999 12 31.

(** [datetime.timedelta(days=n)]: OverflowError past 999999999 days. *)
Definition timedelta (n : Z) : result Z :=
  if 999999999 <? Z.abs n then Err OverflowError else Ok n.

(** [date + timedelta]: OverflowError outside [date.min, date.max]. *)
Definition date_add (o n : Z) : result Z :=
  let o' := o + n in
  if (0 <? o') && (o' <=? MAXORDINAL) then Ok o' else Err OverflowError.

(** [(date1 - date2).days] *)
Definition date_sub (o1 o2 : Z) : Z := o1 - o2.

(** * DateConverter *)

(** The arguments of [setReferencePoint], by the [isinstance] tests the
    code makes on them. *)
Inductive PyValue :=
| PyNone
| PyDate : Z -> PyValue
| PyMDate : MauvelianDate -> PyValue
| PyOther.

Definition is_date (v : PyValue) : bool :=
  match v with PyDate _ => true | _ => false end.
Definition is_mdate (v : PyValue) : bool :=
  match v with PyMDate _ => true | _ => false end.

(** [self._reference]; the class attribute [(None, None)] until set. *)
Record DateConverter := mkConverter {
  ref_real : option Z;
  ref_mauvelian : option MauvelianDate
}.

Definition converter_init : DateConverter := mkConverter None None.

Definition as_date (v : PyValue) : option Z :=
  match v with PyDate o => Some o | _ => None end.
Definition as_mdate (v : PyValue) : option MauvelianDate :=
  match v with PyMDate d => Some d | _ => None end.

(** [setReferencePoint].  When the first operand of [and] is true, Python
    evaluates [isinstance(real_date, NoneType)]; [NoneType] is not a name the
    module defines or imports (nor a builtin), so that raises NameError before
    [TypeError] can be reached.  When it is false, [and] short-circuits and
    the pair is stored. *)
Definition setReferencePoint (self : DateConverter) (real_date mauvelian_date : PyValue)
  : result unit * DateConverter :=
  if negb (is_date real_date) || negb (is_mdate mauvelian_date) then
    (Err NameError, self)
  else
    (Ok tt, mkConverter (as_date real_date) (as_mdate mauvelian_date)).

Definition realToMauvelian (self : DateConverter) (real_date : Z)
  : result MauvelianDate * DateConverter :=
  match ref_real self, ref_mauvelian self with
  | Some r, Some m =>
      let delta_days := date_sub real_date r in
      (add m delta_days, self)
  | _, _ => (Err RuntimeError, self)
  end.

(** [delta_days = mauvelian_date - self._reference[1]] goes through [__sub__]
    with a MauvelianDate, i.e. [daysBetween]; the line [dd = ...] repeats it. *)
Definition mauvelianToReal (self : DateConverter) (mauvelian_date : MauvelianDate)
  : result Z * DateConverter :=
  match ref_real self, ref_mauvelian self with
  | Some r, Some m =>
      let res :=
        v <- sub recursion_limit mauvelian_date (SubDate m);
        match v with
        | VInt delta_days => td <- timedelta delta_days; date_add r td
        | VDate _ => Err TypeError
        end in
      (res, self)
  | _, _ => (Err RuntimeError, self)
  end.

(** The conversion of §4.2 of the spec, read from its words: the delta is
    [daysBetween] re-signed by which date is later. *)
Definition mauvelianToReal_spec (self : DateConverter) (mauvelian_date : MauvelianDate)
  : result Z :=
  match ref_real self, ref_mauvelian self with
  | Some r, Some m =>
      let mag := daysBetween mauvelian_date m in
      let delta := if gt mauvelian_date m then mag
                   else if lt mauvelian_date m then - mag else 0 in
      td <- timedelta delta; date_add r td
  | _, _ => Err RuntimeError
  end.

(** The converter of the module's self-test: reference
    (date(2016, 11, 5), MauvelianDate(1328, 35, COLOSSUS)). *)
Definition example_reference : MauvelianDate :=
  match MauvelianDate_init 1328 35 (Some COLOSSUS) with
  | Ok d => d
  | Err _ => mkDate 0
  end.

Definition example_converter : DateConverter :=
  snd (setReferencePoint converter_init (PyDate (ymd2ord 2016 11 5)) (PyMDate example_reference)).

(** * Text: [MauvelianSeason.__str__] and [MauvelianDate.__str__] *)

(** ["%i" % n]: the decimal digits of [n], with a leading '-' when negative. *)
Definition py_int_str (n : Z) : string := NilZero.string_of_int (Z.to_int n).

Definition season_str (s : MauvelianSeason) : string :=
  match s with
  | ZEPHYR => "Season of Zephyr"
  | PHOENIX => "Season of Phoenix"
  | SCION => "Season of Scion"
  | COLOSSUS => "Season of Colossus"
  end.

(** [MauvelianDate.__str__]: ["%i %s, %iAE"] for a positive offset, else
    ["%i %s, %iBE"] with [-self.year]; the tuple is evaluated left to right. *)
Definition str (self : MauvelianDate) : result string :=
  k <- dayOfSeason self;
  s <- season self;
  y <- year self;
  if 0 <? day self then
    Ok (py_int_str k ++ " " ++ season_str s ++ ", " ++ py_int_str y ++ "AE")%string
  else
    Ok (py_int_str k ++ " " ++ season_str s ++ ", " ++ py_int_str (- y) ++ "BE")%string.

(** * Further definitions used by the statements *)

(** [MauvelianDate(self.year, self.dayOfYear)]: the fresh copy [__add__]
    builds before calling [addDays]. *)
Definition reconstruct (self : MauvelianDate) : result MauvelianDate :=
  y <- year self;
  MauvelianDate_init y (dayOfYear self) None.

(** The dates a program can hold: built by [__init__], then moved by [addDays]. *)
Inductive Reachable : MauvelianDate -> Prop :=
| reach_init y d s md : MauvelianDate_init y d s = Ok md -> Reachable md
| reach_addDays md n : Reachable md -> Reachable (addDays md n).

(** The season table of the spec, read in its order of precedence. *)
Definition season_by_bounds (doy : Z) : MauvelianSeason :=
  if doy <=? 90 then ZEPHYR
  else if doy <=? 180 then PHOENIX
  else if doy <=? 270 then SCION
  else COLOSSUS.

(** The two round trips through the converter. *)
Definition roundtrip_mauvelian (st : DateConverter) (d : MauvelianDate) : result MauvelianDate :=
  r <- fst (mauvelianToReal st d); fst (realToMauvelian st r).

Definition roundtrip_real (st : DateConverter) (r : Z) : result Z :=
  m <- fst (realToMauvelian st r); fst (mauvelianToReal st m).

(** * Lemmas: Python's float division by 365 on offsets up to 2^53 *)

Module FloatDiv.

Lemma round_half_even_spec (N D : Z) :
  0 < D -> 2 * Z.abs (round_half_even N D * D - N) <= D.
Proof.
  intros HD. unfold round_half_even.
  pose proof (Z.div_mod N D ltac:(lia)) as Hdm.
  pose proof (Z.mod_pos_bound N D HD) as Hr.
  set (q := N / D) in *. set (r := N mod D) in *.
  destruct (2 * r <? D) eqn:H1; [apply Z.ltb_lt in H1 | apply Z.ltb_ge in H1];
  [| destruct (D <? 2 * r) eqn:H2; [apply Z.ltb_lt in H2 | apply Z.ltb_ge in H2];
     [| destruct (Z.even q)]]; lia.
Qed.

(** A positive [m] lying in ((c-1)P, cP] has ceiling [c] once divided by P. *)
Lemma ceil_div_unique (m P c : Z) :
  0 < P -> (c - 1) * P < m <= c * P -> - ((- m) / P) = c.
Proof.
  intros HP Hm.
  assert (Hq : - c = (- m) / P).
  { apply (Z.div_unique_pos (- m) P (- c) (c * P - m)); lia. }
  lia.
Qed.

Lemma truediv_365_pos (a : Z) :
  0 < a <= 2 ^ 53 ->
  exists s, 8 <= s /\ truediv a 365 = Ok (round_half_even (a * 2 ^ s) 365, - s).
Proof.
  intros Ha. unfold truediv.
  replace (a =? 0) with false by (symmetry; apply Z.eqb_neq; lia).
  rewrite (Z.abs_eq a) by lia.
  change (Z.log2 365 + 1) with 9. change (2 ^ 9) with 512.
  set (L := Z.log2 (a * 512 / 365)).
  assert (HL : L < 54).
  { unfold L. apply Z.log2_lt_pow2.
    - apply Z.div_str_pos. lia.
    - apply Z.div_lt_upper_bound; lia. }
  assert (HL0 : 0 <= L) by apply Z.log2_nonneg.
  set (s := 52 - (L - 9)).
  replace (0 <=? s) with true by (symmetry; apply Z.leb_le; lia).
  assert (HP : 2 ^ 8 <= 2 ^ s) by (apply Z.pow_le_mono_r; lia).
  change (2 ^ 8) with 256 in HP.
  pose proof (round_half_even_spec (a * 2 ^ s) 365 ltac:(lia)) as Hm.
  set (m := round_half_even (a * 2 ^ s) 365) in *.
  assert (Hlog : Z.log2 m <= 53 + s).
  { rewrite <- (Z.log2_pow2 (53 + s)) by lia.
    apply Z.log2_le_mono. rewrite Z.pow_add_r by lia.
    assert (a * 2 ^ s <= 2 ^ 53 * 2 ^ s) by (apply Z.mul_le_mono_nonneg_r; lia).
    lia. }
  replace (1024 <=? Z.log2 m - s) with false by (symmetry; apply Z.leb_gt; lia).
  exists s. split; [lia |].
  rewrite (Z.sgn_pos a) by lia. rewrite Z.mul_1_l. reflexivity.
Qed.

(** On a positive offset up to 2^53, [year] is the exact ceiling of day/365. *)
Lemma year_pos_exact (a : Z) :
  0 < a <= 2 ^ 53 -> year (mkDate a) = Ok ((a + 364) / 365).
Proof.
  intros Ha. unfold year. simpl day.
  replace (0 <? a) with true by (symmetry; apply Z.ltb_lt; lia).
  destruct (truediv_365_pos a Ha) as [s [Hs ->]]. simpl bind.
  unfold py_ceil.
  replace (0 <=? - s) with false by (symmetry; apply Z.leb_gt; lia).
  rewrite Z.opp_involutive. f_equal.
  assert (HP : 2 ^ 8 <= 2 ^ s) by (apply Z.pow_le_mono_r; lia).
  change (2 ^ 8) with 256 in HP.
  set (P := 2 ^ s) in *.
  pose proof (round_half_even_spec (a * P) 365 ltac:(lia)) as Hm.
  set (m := round_half_even (a * P) 365) in *.
  pose proof (Z.div_mod a 365 ltac:(lia)) as Ha'.
  pose proof (Z.mod_pos_bound a 365 ltac:(lia)) as Hr.
  set (q := a / 365) in *. set (r := a mod 365) in *.
  assert (HaP : a * P = 365 * (q * P) + r * P) by (rewrite Ha' at 1; ring).
  set (X := q * P) in *. set (Y := r * P) in *.
  apply ceil_div_unique; [lia |].
  destruct (Z.eq_dec r 0) as [Hr0 | Hr0].
  - assert (HY : Y = 0) by (unfold Y; rewrite Hr0; ring).
    assert (Hc : (a + 364) / 365 = q).
    { symmetry. apply (Z.div_unique_pos (a + 364) 365 q 364); lia. }
    rewrite Hc. assert (HmX : m = X) by lia.
    replace ((q - 1) * P) with (X - P) by (unfold X; ring).
    replace (q * P) with X by reflexivity. lia.
  - assert (HY1 : P <= Y) by (unfold Y; nia).
    assert (HY2 : Y <= 364 * P) by (unfold Y; nia).
    assert (Hc : (a + 364) / 365 = q + 1).
    { symmetry. apply (Z.div_unique_pos (a + 364) 365 (q + 1) (r - 1)); lia. }
    rewrite Hc.
    replace ((q + 1 - 1) * P) with X by (unfold X; ring).
    replace ((q + 1) * P) with (X + P) by (unfold X; ring). lia.
Qed.

End FloatDiv.

(** * Lemmas about MauvelianDate *)

Module Calendar.

Ltac split_cmp :=
  repeat match goal with
  | |- context [?a <=? ?b] => destruct (Z.leb_spec a b)
  | |- context [?a <? ?b] => destruct (Z.ltb_spec a b)
  | |- context [?a =? ?b] => destruct (Z.eqb_spec a b)
  end.

Lemma add_reconstruct (d : MauvelianDate) (n : Z) :
  add d n = (c <- reconstruct d; Ok (addDays c n)).
Proof. unfold add, reconstruct. destruct (year d); reflexivity. Qed.

Lemma dayOfYear_range (d : MauvelianDate) : 1 <= dayOfYear d <= 365.
Proof.
  unfold dayOfYear.
  pose proof (Z.mod_pos_bound (day d) 365 ltac:(lia)).
  rewrite Z.abs_eq by lia. split_cmp; lia.
Qed.

Lemma addDays_day (d : MauvelianDate) (n : Z) :
  day (addDays d n) = if day d + n =? 0 then 1 else day d + n.
Proof. unfold addDays. split_cmp; reflexivity. Qed.

Lemma addDays_nonzero (d : MauvelianDate) (n : Z) : day (addDays d n) <> 0.
Proof. rewrite addDays_day. split_cmp; lia. Qed.

(** An AE construction: the offset is [doy + 365 * (y - 1)]. *)
Lemma init_AE (y doy : Z) :
  1 <= y -> 1 <= doy <= 365 ->
  MauvelianDate_init y doy None = Ok (mkDate (doy + 365 * (y - 1))).
Proof.
  intros Hy Hd. unfold MauvelianDate_init. simpl bind. split_cmp; try lia; reflexivity.
Qed.

(** A positive offset up to 2^53 is rebuilt exactly from its accessors. *)
Lemma reconstruct_pos (d : MauvelianDate) :
  0 < day d <= 2 ^ 53 -> reconstruct d = Ok (mkDate (day d)).
Proof.
  intros Hd. unfold reconstruct.
  destruct d as [a]. simpl day in *.
  rewrite FloatDiv.year_pos_exact by lia. simpl bind.
  pose proof (Z.div_mod a 365 ltac:(lia)) as Ha.
  pose proof (Z.mod_pos_bound a 365 ltac:(lia)) as Hr.
  unfold dayOfYear. simpl day. rewrite (Z.abs_eq (a mod 365)) by lia.
  destruct (Z.eq_dec (a mod 365) 0) as [H0 | H0].
  - assert (Hc : (a + 364) / 365 = a / 365).
    { symmetry. apply (Z.div_unique_pos (a + 364) 365 (a / 365) 364); lia. }
    rewrite Hc, H0. simpl (0 =? 0). cbv iota.
    rewrite init_AE by lia. f_equal. f_equal. lia.
  - assert (Hc : (a + 364) / 365 = a / 365 + 1).
    { symmetry. apply (Z.div_unique_pos (a + 364) 365 (a / 365 + 1) (a mod 365 - 1)); lia. }
    rewrite Hc. replace (a mod 365 =? 0) with false by (symmetry; apply Z.eqb_neq; lia).
    rewrite init_AE by lia. f_equal. f_equal. lia.
Qed.

End Calendar.

(** * Claims *)

(** C1 (as stated, refuted).  The round trip year/dayOfYear fails for a BE
    year: MauvelianDate(-1, 1) reads back dayOfYear 364.  It also fails for a
    huge AE year, through the float division in [year]:
    MauvelianDate(2^46 + 1, 1).year is 2^46. *)
Lemma year_dayOfYear_roundtrip_fails :
  ~ (forall y doy, y <> 0 -> 1 <= doy <= 365 ->
       exists d, MauvelianDate_init y doy None = Ok d /\ year d = Ok y /\ dayOfYear d = doy)
  /\ (exists d, MauvelianDate_init (2 ^ 46 + 1) 1 None = Ok d /\ year d = Ok (2 ^ 46)).
Proof.
  split.
  - intros H. destruct (H (-1) 1 ltac:(lia) ltac:(lia)) as [d [Hd [_ Hdoy]]].
    vm_compute in Hd. injection Hd as <-. vm_compute in Hdoy. discriminate.
  - eexists. split; [reflexivity | vm_compute; reflexivity].
Qed.

(** C1 (amended): for every AE year [y] with 1 <= y <= 2^44 (offsets up to
    2^53, where the float division is exact enough) and every dayOfYear in
    1..365, MauvelianDate(y, doy) reads back year y and dayOfYear doy. *)
Theorem year_dayOfYear_roundtrip_AE (y doy : Z) :
  1 <= y <= 2 ^ 44 -> 1 <= doy <= 365 ->
  exists d, MauvelianDate_init y doy None = Ok d /\ year d = Ok y /\ dayOfYear d = doy.
Proof.
  intros Hy Hd. rewrite Calendar.init_AE by lia.
  eexists. split; [reflexivity |]. split.
  - rewrite FloatDiv.year_pos_exact by lia. f_equal.
    symmetry. apply (Z.div_unique_pos _ 365 y (doy - 1)); lia.
  - unfold dayOfYear. cbn [day].
    rewrite (Z.mul_comm 365 (y - 1)), Z_mod_plus_full.
    destruct (Z.eq_dec doy 365) as [-> | Hne]; [reflexivity |].
    rewrite Z.mod_small by lia. rewrite Z.abs_eq by lia.
    replace (doy =? 0) with false by (symmetry; apply Z.eqb_neq; lia). reflexivity.
Qed.

Lemma year_dayOfYear_roundtrip_AE_witness :
  exists d, MauvelianDate_init 1306 256 None = Ok d /\ year d = Ok 1306 /\ dayOfYear d = 256.
Proof. apply (year_dayOfYear_roundtrip_AE 1306 256); lia. Defined.

(** C2 (code bug).  A date with offset 0, whose year reads 0, is reachable:
    MauvelianDate(-2, 365) stores [-365 - 365 * (-2 + 1)] = 0. *)
Theorem zero_offset_reachable :
  MauvelianDate_init (-2) 365 None = Ok (mkDate 0)
  /\ Reachable (mkDate 0) /\ year (mkDate 0) = Ok 0.
Proof.
  assert (H : MauvelianDate_init (-2) 365 None = Ok (mkDate 0)) by reflexivity.
  split; [exact H | split].
  - exact (reach_init _ _ _ _ H).
  - reflexivity.
Qed.

(** C8: addDays adds [n] to the offset, and a result of exactly 0 becomes 1
    whatever the sign of [n]. *)
Theorem addDays_offset (d : MauvelianDate) (n : Z) :
  day (addDays d n) = (if day d + n =? 0 then 1 else day d + n)
  /\ (day d + n = 0 -> 0 < n -> day (addDays d n) = 1)
  /\ (day d + n = 0 -> n <= 0 -> day (addDays d n) = 1).
Proof.
  rewrite Calendar.addDays_day.
  split; [reflexivity |].
  split; intros H0 _; rewrite H0; reflexivity.
Qed.

(** C9: on 1..365 the season lookup is the table read by its inclusive upper
    bounds 90, 180, 270; and for every date, dayOfYear lies in its season's
    range and dayOfSeason is dayOfYear - start + 1, in 1..90 (1..95 for
    Colossus). *)
Theorem season_lookup_table :
  (forall doy, 1 <= doy <= 365 -> seasonOf doy = Ok (season_by_bounds doy))
  /\ (forall d : MauvelianDate, exists s k,
        season d = Ok s /\ dayOfSeason d = Ok k
        /\ in_range (dayOfYear d) (daysRange s) = true
        /\ k = dayOfYear d - range_start (daysRange s) + 1
        /\ 1 <= k <= range_len (daysRange s)
        /\ range_len (daysRange s) = (match s with COLOSSUS => 95 | _ => 90 end)).
Proof.
  assert (Hlook : forall doy, 1 <= doy <= 365 -> seasonOf doy = Ok (season_by_bounds doy)).
  { intros doy Hd. unfold seasonOf, season_by_bounds.
    Calendar.split_cmp; simpl; try reflexivity; lia. }
  split; [exact Hlook |].
  intros d. pose proof (Calendar.dayOfYear_range d) as Hd.
  unfold season, dayOfSeason. rewrite (Hlook _ Hd). simpl bind.
  exists (season_by_bounds (dayOfYear d)).
  eexists. split; [reflexivity |]. split; [reflexivity |].
  set (x := dayOfYear d) in *. unfold season_by_bounds.
  destruct (Z.leb_spec x 90); [| destruct (Z.leb_spec x 180); [| destruct (Z.leb_spec x 270)]];
    unfold in_range, range_start, range_len; cbn [daysRange fst snd];
    repeat split; try lia; Calendar.split_cmp; try reflexivity; lia.
Qed.

Lemma season_lookup_table_witness :
  seasonOf 256 = Ok (season_by_bounds 256).
Proof. apply (proj1 season_lookup_table 256). lia. Defined.

(** C10 (as stated, refuted).  For the AE offset 365 * 2^46 + 1 the float
    division in [year] yields 2^46 instead of 2^46 + 1, so the rebuilt date
    is a different one, and so is [d + 0]. *)
Lemma reconstruct_identity_fails :
  ~ (forall d, 0 < day d ->
       exists d', reconstruct d = Ok d' /\ eq d' d = true)
  /\ add (mkDate (365 * 2 ^ 46 + 1)) 0 = Ok (mkDate (365 * 2 ^ 46 + 1 - 365)).
Proof.
  split.
  - intros H. destruct (H (mkDate (365 * 2 ^ 46 + 1)) ltac:(simpl; lia)) as [d' [Hr He]].
    vm_compute in Hr. injection Hr as <-. vm_compute in He. discriminate.
  - vm_compute. reflexivity.
Qed.

(** C10 (amended): a date with offset in 1..2^53 is rebuilt exactly from its
    own year and dayOfYear, and [d + 0] equals [d]. *)
Theorem reconstruct_identity_AE (d : MauvelianDate) :
  0 < day d <= 2 ^ 53 ->
  (exists d', reconstruct d = Ok d' /\ eq d' d = true)
  /\ (exists d'', add d 0 = Ok d'' /\ eq d'' d = true).
Proof.
  intros Hd. rewrite Calendar.add_reconstruct, Calendar.reconstruct_pos by exact Hd.
  split; eexists; split; try reflexivity; unfold eq; apply Z.eqb_eq.
  - reflexivity.
  - rewrite Calendar.addDays_day. cbn [day].
    replace (day d + 0 =? 0) with false by (symmetry; apply Z.eqb_neq; lia). lia.
Qed.

Lemma reconstruct_identity_AE_witness :
  (exists d', reconstruct (mkDate 484660) = Ok d' /\ eq d' (mkDate 484660) = true)
  /\ (exists d'', add (mkDate 484660) 0 = Ok d'' /\ eq d'' (mkDate 484660) = true).
Proof. apply (reconstruct_identity_AE (mkDate 484660)). simpl. lia. Defined.

(** C5 (code bug).  [d - n] with an int [n] calls [__sub__] on the same
    arguments again at every level, so it ends in RecursionError whatever the
    room left on the stack; it never returns [d.addDays(-n)]. *)
Theorem sub_int_recursion (depth : nat) (d : MauvelianDate) (n : Z) :
  sub depth d (SubInt n) = Err RecursionError.
Proof. induction depth as [| depth IH]; [reflexivity | exact IH]. Qed.

(** C6 (code bug).  A pair with exactly one part supplied, and the pair of
    two [None], both end in NameError (the undefined [NoneType]), with the
    reference left as it was; a full pair is stored. *)
Theorem setReferencePoint_partial_pair (st : DateConverter) (r : Z) (m : MauvelianDate) :
  setReferencePoint st (PyDate r) PyNone = (Err NameError, st)
  /\ setReferencePoint st PyNone (PyMDate m) = (Err NameError, st)
  /\ setReferencePoint st PyNone PyNone = (Err NameError, st)
  /\ setReferencePoint st (PyDate r) (PyMDate m) = (Ok tt, mkConverter (Some r) (Some m)).
Proof. repeat split. Qed.

(** setReferencePoint stores a complete pair or leaves the reference as it was. *)
Lemma setReferencePoint_complete_or_unchanged (st : DateConverter) (a b : PyValue) :
  snd (setReferencePoint st a b) = st
  \/ exists r m, snd (setReferencePoint st a b) = mkConverter (Some r) (Some m).
Proof.
  unfold setReferencePoint.
  destruct a; destruct b; simpl; try (left; reflexivity).
  right. eexists; eexists; reflexivity.
Qed.

(** C7: while no complete reference pair is stored, both conversions raise
    RuntimeError and leave the converter unchanged. *)
Theorem conversions_need_reference (st : DateConverter) :
  ref_real st = None \/ ref_mauvelian st = None ->
  forall (r : Z) (m : MauvelianDate),
    realToMauvelian st r = (Err RuntimeError, st)
    /\ mauvelianToReal st m = (Err RuntimeError, st).
Proof.
  intros Hnone r m. unfold realToMauvelian, mauvelianToReal.
  destruct Hnone as [-> | ->];
    [| destruct (ref_real st)]; split; reflexivity.
Qed.

Lemma conversions_need_reference_witness :
  realToMauvelian converter_init (ymd2ord 2016 11 5) = (Err RuntimeError, converter_init)
  /\ mauvelianToReal converter_init example_reference = (Err RuntimeError, converter_init).
Proof. apply (conversions_need_reference converter_init). left. reflexivity. Defined.

(** * The example converter *)

Module Example.

Lemma maxordinal_value : MAXORDINAL = 3652059.
Proof. reflexivity. Qed.

(** Both conversions of a converter holding the reference pair (r0, m0). *)
Lemma realToMauvelian_ref (r0 : Z) (m0 : MauvelianDate) (r : Z) :
  0 < day m0 <= 2 ^ 53 ->
  fst (realToMauvelian (mkConverter (Some r0) (Some m0)) r) = Ok (addDays m0 (r - r0)).
Proof.
  intros Hm. cbn [realToMauvelian ref_real ref_mauvelian fst]. unfold date_sub.
  rewrite Calendar.add_reconstruct, Calendar.reconstruct_pos by exact Hm.
  destruct m0; reflexivity.
Qed.

Lemma mauvelianToReal_ref (r0 : Z) (m0 m : MauvelianDate) :
  fst (mauvelianToReal (mkConverter (Some r0) (Some m0)) m)
  = (td <- timedelta (Z.abs (day m - day m0)); date_add r0 td).
Proof. reflexivity. Qed.

End Example.

(** C3 (code bug).  [mauvelianToReal] adds the unsigned [daysBetween] to the
    reference real date, for dates on either side of the reference.  With the
    reference (2016-11-05, MauvelianDate(1328, 35, COLOSSUS)), the date
    MauvelianDate(1328, 29, COLOSSUS), six days before it, is converted to
    2016-11-11, where the re-signed delta gives 2016-10-30. *)
Theorem mauvelianToReal_unsigned_delta :
  (forall r mref m,
     fst (mauvelianToReal (mkConverter (Some r) (Some mref)) m)
     = (td <- timedelta (daysBetween m mref); date_add r td))
  /\ MauvelianDate_init 1328 29 (Some COLOSSUS) = Ok (mkDate 484654)
  /\ fst (mauvelianToReal example_converter (mkDate 484654)) = Ok (ymd2ord 2016 11 11)
  /\ mauvelianToReal_spec example_converter (mkDate 484654) = Ok (ymd2ord 2016 10 30).
Proof.
  split; [intros r mref m; reflexivity |].
  split; [reflexivity |]. split; vm_compute; reflexivity.
Qed.

(** C4 (as stated, refuted).  MauvelianDate(9400, 1) lies past 9999-12-31
    from the reference, so [mauvelianToReal] raises OverflowError; and the real
    date 484660 days before 2016-11-05 is sent to offset 1 by [addDays]
    (offset 0 is skipped), which does not convert back to it. *)
Lemma converter_roundtrip_fails :
  MauvelianDate_init 9400 1 None = Ok (mkDate 3430636)
  /\ roundtrip_mauvelian example_converter (mkDate 3430636) = Err OverflowError
  /\ ~ (forall d, exists d', roundtrip_mauvelian example_converter d = Ok d' /\ eq d' d = true)
  /\ roundtrip_real example_converter 251613 <> Ok 251613.
Proof.
  split; [reflexivity |]. split; [vm_compute; reflexivity |]. split.
  - intros H. destruct (H (mkDate 3430636)) as [d' [Hr _]]. vm_compute in Hr. discriminate.
  - vm_compute. discriminate.
Qed.

(** C4 (amended): for any converter whose reference pair (r0, m0) is set,
    with m0 an AE date of offset up to 2^53, a Mauvelian date on or after m0
    whose real counterpart is within the range of datetime.date comes back
    unchanged from the round trip, and so does every real date on or after
    r0. *)
Theorem converter_roundtrip_after_reference (st0 : DateConverter) (r0 : Z) (m0 : MauvelianDate) :
  1 <= r0 <= MAXORDINAL -> 0 < day m0 <= 2 ^ 53 ->
  let st := snd (setReferencePoint st0 (PyDate r0) (PyMDate m0)) in
  (forall d, day m0 <= day d -> day d - day m0 + r0 <= MAXORDINAL ->
     exists d', roundtrip_mauvelian st d = Ok d' /\ eq d' d = true)
  /\ (forall r, r0 <= r <= MAXORDINAL -> roundtrip_real st r = Ok r).
Proof.
  intros Hr0 Hm0 st.
  assert (Hst : st = mkConverter (Some r0) (Some m0)) by reflexivity.
  rewrite Hst. clear st Hst.
  rewrite Example.maxordinal_value in *.
  set (M := day m0) in *. split.
  - intros d H1 H2.
    assert (Hrt : roundtrip_mauvelian (mkConverter (Some r0) (Some m0)) d
                  = Ok (addDays m0 (r0 + (day d - M) - r0))).
    { unfold roundtrip_mauvelian. rewrite Example.mauvelianToReal_ref. fold M.
      unfold timedelta. rewrite !(Z.abs_eq (day d - M)) by lia.
      replace (999999999 <? day d - M) with false by (symmetry; apply Z.ltb_ge; lia).
      cbn [bind]. unfold date_add. rewrite Example.maxordinal_value.
      replace ((0 <? r0 + (day d - M)) && (r0 + (day d - M) <=? 3652059))
        with true by (symmetry; apply andb_true_intro; split; [apply Z.ltb_lt | apply Z.leb_le]; lia).
      cbn [bind]. apply Example.realToMauvelian_ref. exact Hm0. }
    eexists. split; [exact Hrt |].
    unfold eq. apply Z.eqb_eq. rewrite Calendar.addDays_day. fold M.
    replace (M + (r0 + (day d - M) - r0) =? 0) with false
      by (symmetry; apply Z.eqb_neq; lia). lia.
  - intros r Hr. unfold roundtrip_real.
    rewrite (Example.realToMauvelian_ref r0 m0 r Hm0). cbn [bind].
    rewrite Example.mauvelianToReal_ref.
    rewrite Calendar.addDays_day. fold M.
    replace (M + (r - r0) =? 0) with false by (symmetry; apply Z.eqb_neq; lia).
    cbn [day].
    replace (Z.abs (M + (r - r0) - M)) with (r - r0) by (rewrite Z.abs_eq; lia).
    unfold timedelta. rewrite Z.abs_eq by lia.
    replace (999999999 <? r - r0) with false by (symmetry; apply Z.ltb_ge; lia).
    cbn [bind]. unfold date_add. rewrite Example.maxordinal_value.
    replace ((0 <? r0 + (r - r0)) && (r0 + (r - r0) <=? 3652059))
      with true by (symmetry; apply andb_true_intro; split; [apply Z.ltb_lt | apply Z.leb_le]; lia).
    f_equal. lia.
Qed.

Lemma converter_roundtrip_after_reference_witness :
  roundtrip_real (snd (setReferencePoint converter_init (PyDate (ymd2ord 2016 11 5)) (PyMDate example_reference)))
    (ymd2ord 2016 11 11) = Ok (ymd2ord 2016 11 11).
Proof.
  refine (proj2 (converter_roundtrip_after_reference converter_init (ymd2ord 2016 11 5)
                   example_reference _ _) (ymd2ord 2016 11 11) _);
    rewrite ?Example.maxordinal_value; vm_compute; split; first [reflexivity | intro Hc; discriminate Hc].
Defined.

(** * Further properties of the calendar code *)

Module Props.

(** [truediv] by 365 of any nonzero int of magnitude up to 2^53. *)
Lemma truediv_365 (a : Z) :
  a <> 0 -> Z.abs a <= 2 ^ 53 ->
  exists s, 8 <= s
    /\ truediv a 365 = Ok (Z.sgn a * round_half_even (Z.abs a * 2 ^ s) 365, - s).
Proof.
  intros Ha0 Ha. unfold truediv.
  replace (a =? 0) with false by (symmetry; apply Z.eqb_neq; lia).
  change (Z.log2 365 + 1) with 9. change (2 ^ 9) with 512.
  set (n := Z.abs a) in *.
  assert (Hn : 0 < n) by (unfold n; lia).
  set (L := Z.log2 (n * 512 / 365)).
  assert (HL : L < 54).
  { unfold L. apply Z.log2_lt_pow2.
    - apply Z.div_str_pos. lia.
    - apply Z.div_lt_upper_bound; lia. }
  assert (HL0 : 0 <= L) by apply Z.log2_nonneg.
  set (s := 52 - (L - 9)).
  replace (0 <=? s) with true by (symmetry; apply Z.leb_le; lia).
  assert (HP : 2 ^ 8 <= 2 ^ s) by (apply Z.pow_le_mono_r; lia).
  change (2 ^ 8) with 256 in HP.
  pose proof (FloatDiv.round_half_even_spec (n * 2 ^ s) 365 ltac:(lia)) as Hm.
  set (m := round_half_even (n * 2 ^ s) 365) in *.
  assert (Hlog : Z.log2 m <= 53 + s).
  { rewrite <- (Z.log2_pow2 (53 + s)) by lia.
    apply Z.log2_le_mono. rewrite Z.pow_add_r by lia.
    assert (n * 2 ^ s <= 2 ^ 53 * 2 ^ s) by (apply Z.mul_le_mono_nonneg_r; lia).
    lia. }
  replace (1024 <=? Z.log2 m - s) with false by (symmetry; apply Z.leb_gt; lia).
  exists s. split; [lia | reflexivity].
Qed.

(** The rounded quotient [n * 2^s / 365] (s >= 8) has the exact ceiling of
    n / 365 once scaled back. *)
Lemma ceil_rounded (n s : Z) :
  0 < n <= 2 ^ 53 -> 8 <= s ->
  - ((- round_half_even (n * 2 ^ s) 365) / 2 ^ s) = (n + 364) / 365.
Proof.
  intros Hn Hs.
  assert (HP : 2 ^ 8 <= 2 ^ s) by (apply Z.pow_le_mono_r; lia).
  change (2 ^ 8) with 256 in HP.
  set (P := 2 ^ s) in *.
  pose proof (FloatDiv.round_half_even_spec (n * P) 365 ltac:(lia)) as Hm.
  set (m := round_half_even (n * P) 365) in *.
  pose proof (Z.div_mod n 365 ltac:(lia)) as Ha'.
  pose proof (Z.mod_pos_bound n 365 ltac:(lia)) as Hr.
  set (q := n / 365) in *. set (r := n mod 365) in *.
  assert (HaP : n * P = 365 * (q * P) + r * P) by (rewrite Ha' at 1; ring).
  set (X := q * P) in *. set (Y := r * P) in *.
  apply FloatDiv.ceil_div_unique; [lia |].
  destruct (Z.eq_dec r 0) as [Hr0 | Hr0].
  - assert (HY : Y = 0) by (unfold Y; rewrite Hr0; ring).
    assert (Hc : (n + 364) / 365 = q).
    { symmetry. apply (Z.div_unique_pos (n + 364) 365 q 364); lia. }
    rewrite Hc. assert (HmX : m = X) by lia.
    replace ((q - 1) * P) with (X - P) by (unfold X; ring).
    replace (q * P) with X by reflexivity. lia.
  - assert (HY1 : P <= Y) by (unfold Y; nia).
    assert (HY2 : Y <= 364 * P) by (unfold Y; nia).
    assert (Hc : (n + 364) / 365 = q + 1).
    { symmetry. apply (Z.div_unique_pos (n + 364) 365 (q + 1) (r - 1)); lia. }
    rewrite Hc.
    replace ((q + 1 - 1) * P) with X by (unfold X; ring).
    replace ((q + 1) * P) with (X + P) by (unfold X; ring). lia.
Qed.

(** [year] on any nonzero offset of magnitude up to 2^53: the exact ceiling
    (AE) or floor (BE) of offset / 365. *)
Lemma year_exact (a : Z) :
  a <> 0 -> Z.abs a <= 2 ^ 53 ->
  year (mkDate a) = Ok (if 0 <? a then (a + 364) / 365 else a / 365).
Proof.
  intros Ha0 Ha. unfold year. cbn [day].
  destruct (truediv_365 a Ha0 Ha) as [s [Hs ->]]. cbn [bind].
  pose proof (ceil_rounded (Z.abs a) s ltac:(lia) Hs) as Hc.
  set (m := round_half_even (Z.abs a * 2 ^ s) 365) in *.
  destruct (Z.ltb_spec 0 a).
  - rewrite (Z.sgn_pos a), Z.mul_1_l by lia. unfold py_ceil.
    replace (0 <=? - s) with false by (symmetry; apply Z.leb_gt; lia).
    rewrite (Z.abs_eq a) in Hc by lia. rewrite Z.opp_involutive, Hc. reflexivity.
  - rewrite (Z.sgn_neg a) by lia. unfold py_floor.
    replace (0 <=? - s) with false by (symmetry; apply Z.leb_gt; lia).
    rewrite Z.opp_involutive. f_equal.
    rewrite (Z.abs_neq a) in Hc by lia.
    pose proof (Z.div_mod (- a + 364) 365 ltac:(lia)) as Hd.
    pose proof (Z.mod_pos_bound (- a + 364) 365 ltac:(lia)) as Hb.
    set (c := (- a + 364) / 365) in *.
    assert (Hq : a / 365 = - c).
    { symmetry. apply (Z.div_unique_pos a 365 (- c) (364 - (- a + 364) mod 365)); lia. }
    rewrite Hq. replace (-1 * m) with (- m) by ring. lia.
Qed.

(** An AE construction reads back its year and its day of year. *)
Lemma init_AE_accessors (y doy : Z) :
  1 <= y <= 2 ^ 44 -> 1 <= doy <= 365 ->
  year (mkDate (doy + 365 * (y - 1))) = Ok y
  /\ dayOfYear (mkDate (doy + 365 * (y - 1))) = doy.
Proof.
  intros Hy Hd. split.
  - rewrite year_exact by lia.
    replace (0 <? doy + 365 * (y - 1)) with true by (symmetry; apply Z.ltb_lt; lia).
    f_equal. symmetry. apply (Z.div_unique_pos _ 365 y (doy - 1)); lia.
  - unfold dayOfYear. cbn [day].
    rewrite (Z.mul_comm 365 (y - 1)), Z_mod_plus_full.
    destruct (Z.eq_dec doy 365) as [-> | Hne]; [reflexivity |].
    rewrite Z.mod_small by lia. rewrite Z.abs_eq by lia.
    replace (doy =? 0) with false by (symmetry; apply Z.eqb_neq; lia). reflexivity.
Qed.

(** [season] and [dayOfSeason] of a day of year inside season [s]. *)
Lemma seasonOf_in_season (s : MauvelianSeason) (k : Z) :
  1 <= k <= range_len (daysRange s) ->
  seasonOf (k + range_start (daysRange s) - 1) = Ok s.
Proof.
  destruct s; cbn; intros Hk; unfold seasonOf; Calendar.split_cmp; cbn; try reflexivity; lia.
Qed.

End Props.

(** * Further properties: statements *)

(** [daysBetween] is a distance on dates: symmetric, non-negative, zero
    exactly on equal dates, and it obeys the triangle inequality. *)
Theorem daysBetween_distance (a b c : MauvelianDate) :
  daysBetween a b = daysBetween b a
  /\ 0 <= daysBetween a b
  /\ (daysBetween a b = 0 <-> eq a b = true)
  /\ daysBetween a c <= daysBetween a b + daysBetween b c.
Proof.
  unfold daysBetween, eq. rewrite Z.eqb_eq. repeat split; lia.
Qed.

(** [__lt__], [__eq__] and [__gt__] order dates totally: exactly one of them
    holds for any two dates, and [a > b] is [b < a]. *)
Theorem compare_trichotomy (a b : MauvelianDate) :
  gt a b = lt b a
  /\ (if lt a b then 1 else 0) + (if eq a b then 1 else 0) + (if gt a b then 1 else 0) = 1.
Proof.
  unfold gt, lt, eq. split; [reflexivity |]. Calendar.split_cmp; lia.
Qed.

(** [seasonOf] raises ValueError exactly outside 1..365, and the season it
    returns contains the day in its [daysRange]. *)
Theorem seasonOf_errors_and_range :
  (forall x, seasonOf x = Err ValueError <-> ~ (1 <= x <= 365))
  /\ (forall x s, seasonOf x = Ok s -> in_range x (daysRange s) = true).
Proof.
  split.
  - intros x. unfold seasonOf.
    destruct (Z.leb_spec 1 x), (Z.leb_spec x 365), (Z.leb_spec x 180),
      (Z.leb_spec x 90), (Z.leb_spec x 270); cbn [negb andb];
      split; intros Hx; try discriminate; try reflexivity; lia.
  - intros x s. unfold seasonOf, in_range.
    destruct (Z.leb_spec 1 x), (Z.leb_spec x 365), (Z.leb_spec x 180),
      (Z.leb_spec x 90), (Z.leb_spec x 270); cbn [negb andb];
      intros Hx; try discriminate; injection Hx as <-; cbn [daysRange fst snd];
      Calendar.split_cmp; try reflexivity; lia.
Qed.

Definition day_valid (k : Z) (season0 : option MauvelianSeason) : Prop :=
  match season0 with
  | None => 1 <= k <= 365
  | Some s => 1 <= k <= range_len (daysRange s)
  end.

(** [__init__] fails, always with ValueError, exactly when the year is 0 or
    the day is out of range (1..365 without a season, 1..the season's length
    with one); otherwise it builds a date. *)
Lemma season_bounds (s : MauvelianSeason) :
  1 <= range_start (daysRange s)
  /\ range_start (daysRange s) - 1 + range_len (daysRange s) <= 365.
Proof. destruct s; cbn; lia. Qed.

(** [__init__] as one test: ValueError, or the date. *)
Lemma init_cases (y k : Z) (s : option MauvelianSeason) :
  (y = 0 \/ ~ day_valid k s) /\ MauvelianDate_init y k s = Err ValueError
  \/ (y <> 0 /\ day_valid k s) /\ exists d, MauvelianDate_init y k s = Ok d.
Proof.
  unfold MauvelianDate_init, day_valid.
  destruct (Z.eqb_spec y 0) as [Hy | Hy]; [left; split; [left; exact Hy | reflexivity] |].
  destruct s as [s |].
  - pose proof (season_bounds s) as Hb.
    destruct (Z.leb_spec 1 k), (Z.leb_spec k (range_len (daysRange s))); cbn [negb andb bind];
      try (left; split; [right; lia | reflexivity]).
    right. split; [lia |].
    destruct (Z.leb_spec 1 (k + range_start (daysRange s) - 1)),
      (Z.leb_spec (k + range_start (daysRange s) - 1) 365); cbn [negb andb]; try lia.
    destruct (0 <? y); eexists; reflexivity.
  - cbn [bind]. destruct (Z.leb_spec 1 k), (Z.leb_spec k 365); cbn [negb andb];
      try (left; split; [right; lia | reflexivity]).
    right. split; [lia |]. destruct (0 <? y); eexists; reflexivity.
Qed.

(** [__init__] fails, always with ValueError, exactly when the year is 0 or
    the day is out of range (1..365 without a season, 1..the season's length
    with one); otherwise it builds a date. *)
Theorem init_errors (y k : Z) (s : option MauvelianSeason) :
  (MauvelianDate_init y k s = Err ValueError <-> y = 0 \/ ~ day_valid k s)
  /\ (forall e, MauvelianDate_init y k s = Err e -> e = ValueError)
  /\ (y <> 0 -> day_valid k s -> exists d, MauvelianDate_init y k s = Ok d).
Proof.
  destruct (init_cases y k s) as [[Hbad Hinit] | [[Hy Hv] [d Hinit]]]; rewrite Hinit.
  - split; [tauto |]. split; [intros e He; injection He; auto | intros Hy Hv; tauto].
  - split; [split; [discriminate | tauto] |].
    split; [discriminate | eauto].
Qed.

(** [__init__] with a season and a day within it. *)
Lemma init_with_season (y k : Z) (s : MauvelianSeason) :
  1 <= k <= range_len (daysRange s) ->
  MauvelianDate_init y k (Some s) = MauvelianDate_init y (k + range_start (daysRange s) - 1) None.
Proof.
  intros Hk. unfold MauvelianDate_init. cbn [bind].
  replace (negb ((1 <=? k) && (k <=? range_len (daysRange s)))) with false.
  - reflexivity.
  - symmetry. apply negb_false_iff, andb_true_intro. split; apply Z.leb_le; lia.
Qed.

(** With a season, [__init__] is [__init__] on the day of year
    [day + start - 1]: e.g. (1, 5, PHOENIX) is (1, 95). *)
Theorem init_season_shift (y k : Z) (s : MauvelianSeason) :
  1 <= k <= range_len (daysRange s) ->
  MauvelianDate_init y k (Some s) = MauvelianDate_init y (k + range_start (daysRange s) - 1) None.
Proof. apply init_with_season. Qed.

Lemma init_season_shift_witness :
  MauvelianDate_init 1 5 (Some PHOENIX) = MauvelianDate_init 1 95 None.
Proof. apply (init_season_shift 1 5 PHOENIX). cbn. lia. Defined.

(** [year] is never 0 on a nonzero offset of magnitude up to 2^53: it has
    the offset's sign, and the offset lies in the 365 days of that year
    (AE: 365(y-1) < offset <= 365y; BE: 365y <= offset < 365(y+1)). *)
Theorem year_sign_and_bounds (a : Z) :
  a <> 0 -> Z.abs a <= 2 ^ 53 ->
  exists y, year (mkDate a) = Ok y /\ y <> 0 /\ Z.sgn y = Z.sgn a
    /\ (0 < a -> 365 * (y - 1) < a <= 365 * y)
    /\ (a < 0 -> 365 * y <= a < 365 * (y + 1)).
Proof.
  intros Ha0 Ha. rewrite Props.year_exact by assumption.
  eexists. split; [reflexivity |].
  destruct (Z.ltb_spec 0 a).
  - pose proof (Z.div_mod (a + 364) 365 ltac:(lia)).
    pose proof (Z.mod_pos_bound (a + 364) 365 ltac:(lia)).
    assert (0 < (a + 364) / 365) by (apply Z.div_str_pos; lia).
    rewrite (Z.sgn_pos a) by lia. rewrite Z.sgn_pos by lia. lia.
  - pose proof (Z.div_mod a 365 ltac:(lia)).
    pose proof (Z.mod_pos_bound a 365 ltac:(lia)).
    assert (a / 365 < 0) by (apply Z.div_lt_upper_bound; lia).
    rewrite (Z.sgn_neg a) by lia. rewrite Z.sgn_neg by lia. lia.
Qed.

Lemma year_sign_and_bounds_witness :
  exists y, year (mkDate (-366)) = Ok y /\ y <> 0 /\ Z.sgn y = Z.sgn (-366)
    /\ (0 < -366 -> 365 * (y - 1) < -366 <= 365 * y)
    /\ (-366 < 0 -> 365 * y <= -366 < 365 * (y + 1)).
Proof. apply (year_sign_and_bounds (-366)); cbn; lia. Defined.

(** [__str__] of a date built from an AE year [y] (up to 2^44), a season and
    a day of that season prints exactly those arguments back:
    ["<day> Season of <name>, <y>AE"]. *)
Theorem str_of_init_AE (y k : Z) (s : MauvelianSeason) :
  1 <= y <= 2 ^ 44 -> 1 <= k <= range_len (daysRange s) ->
  exists d, MauvelianDate_init y k (Some s) = Ok d
    /\ str d = Ok (py_int_str k ++ " " ++ season_str s ++ ", " ++ py_int_str y ++ "AE")%string.
Proof.
  intros Hy Hk. pose proof (season_bounds s) as Hb.
  set (doy := k + range_start (daysRange s) - 1).
  rewrite init_with_season by exact Hk. fold doy.
  rewrite Calendar.init_AE by lia.
  eexists. split; [reflexivity |].
  destruct (Props.init_AE_accessors y doy ltac:(lia) ltac:(lia)) as [Hyear Hdoy].
  unfold str, dayOfSeason, season. rewrite Hdoy, Hyear.
  unfold doy. rewrite (Props.seasonOf_in_season s k Hk). cbn [bind day].
  replace (0 <? k + range_start (daysRange s) - 1 + 365 * (y - 1)) with true
    by (symmetry; apply Z.ltb_lt; lia).
  do 3 f_equal. lia.
Qed.

Lemma str_of_init_AE_witness :
  exists d, MauvelianDate_init 1306 76 (Some SCION) = Ok d
    /\ str d = Ok (py_int_str 76 ++ " " ++ season_str SCION ++ ", " ++ py_int_str 1306 ++ "AE")%string.
Proof. apply (str_of_init_AE 1306 76 SCION); cbn; lia. Defined.

(** [__add__] on an AE date (offset up to 2^53) is [addDays] on a copy:
    d + n is the date at offset day + n whenever that is positive (with no
    upper bound), and (d + n) + m equals d + (n + m) whenever the
    intermediate offset day + n lies in 1..2^53, whatever the final offset. *)
Theorem add_compose (d : MauvelianDate) (n m : Z) :
  0 < day d <= 2 ^ 53 ->
  add d n = Ok (addDays d n)
  /\ (0 < day d + n -> add d n = Ok (mkDate (day d + n)))
  /\ (0 < day d + n <= 2 ^ 53 -> (e <- add d n; add e m) = add d (n + m)).
Proof.
  intros H1.
  assert (Hadd : forall x k, 0 < day x <= 2 ^ 53 -> add x k = Ok (addDays x k)).
  { intros x k Hx. rewrite Calendar.add_reconstruct, Calendar.reconstruct_pos by exact Hx.
    destruct x; reflexivity. }
  assert (Hpos : 0 < day d + n -> add d n = Ok (mkDate (day d + n))).
  { intros H2. rewrite (Hadd d n H1). unfold addDays.
    replace (day d + n =? 0) with false by (symmetry; apply Z.eqb_neq; lia). reflexivity. }
  split; [exact (Hadd d n H1) |]. split; [exact Hpos |].
  intros H2. rewrite (Hpos (proj1 H2)). cbn [bind].
  rewrite (Hadd (mkDate (day d + n)) m) by (cbn [day]; exact H2).
  rewrite (Hadd d (n + m) H1). unfold addDays. cbn [day].
  rewrite Z.add_assoc. destruct (day d + n + m =? 0); [| reflexivity].
  destruct (0 <? m), (0 <? n + m); reflexivity.
Qed.

Lemma add_compose_witness :
  add (mkDate (2 ^ 53)) 1 = Ok (addDays (mkDate (2 ^ 53)) 1)
  /\ (0 < day (mkDate (2 ^ 53)) + 1 -> add (mkDate (2 ^ 53)) 1 = Ok (mkDate (day (mkDate (2 ^ 53)) + 1)))
  /\ (0 < day (mkDate (2 ^ 53)) + 1 <= 2 ^ 53 ->
       (e <- add (mkDate (2 ^ 53)) 1; add e (-1)) = add (mkDate (2 ^ 53)) (1 + -1)).
Proof. apply (add_compose (mkDate (2 ^ 53)) 1 (-1)); cbn [day]; lia. Defined.

(** [addDays] with n > 0 always moves to a strictly later date; with n < 0
    it never moves later, and it leaves the date where it was only for
    offset 1 and n = -1 (offset 0 is replaced by 1). *)
Theorem addDays_direction (d : MauvelianDate) (n : Z) :
  (0 < n -> lt d (addDays d n) = true)
  /\ (n < 0 -> day (addDays d n) <= day d)
  /\ (n < 0 -> (day (addDays d n) = day d <-> day d = 1 /\ n = -1)).
Proof.
  unfold lt. rewrite Calendar.addDays_day.
  destruct (Z.eqb_spec (day d + n) 0); repeat split; intros; try apply Z.ltb_lt; lia.
Qed.

(** For any reference pair (r, m) with r a date of datetime's range, the
    reference Mauvelian date converts to r; for an AE reference (offset up
    to 2^53), r converts back to m. *)
Theorem conversions_at_reference (r : Z) (m : MauvelianDate) :
  1 <= r <= MAXORDINAL ->
  fst (mauvelianToReal (mkConverter (Some r) (Some m)) m) = Ok r
  /\ (0 < day m <= 2 ^ 53 -> fst (realToMauvelian (mkConverter (Some r) (Some m)) r) = Ok m).
Proof.
  intros Hr. rewrite Example.maxordinal_value in Hr. split.
  - cbn [mauvelianToReal ref_real ref_mauvelian fst].
    change (sub recursion_limit m (SubDate m)) with (Ok (VInt (daysBetween m m))).
    unfold daysBetween. rewrite Z.sub_diag. cbn [Z.abs bind].
    unfold timedelta. cbn [Z.abs Z.ltb Z.compare]. cbn [bind].
    unfold date_add. rewrite Example.maxordinal_value, Z.add_0_r.
    replace ((0 <? r) && (r <=? 3652059)) with true
      by (symmetry; apply andb_true_intro; split; [apply Z.ltb_lt | apply Z.leb_le]; lia).
    reflexivity.
  - intros Hm. cbn [realToMauvelian ref_real ref_mauvelian fst].
    unfold date_sub. rewrite Z.sub_diag.
    rewrite Calendar.add_reconstruct, Calendar.reconstruct_pos by exact Hm.
    cbn [bind]. unfold addDays. cbn [day]. rewrite Z.add_0_r.
    replace (day m =? 0) with false by (symmetry; apply Z.eqb_neq; lia).
    destruct m; reflexivity.
Qed.

Lemma conversions_at_reference_witness :
  fst (mauvelianToReal (mkConverter (Some 736273) (Some (mkDate 484660))) (mkDate 484660)) = Ok 736273
  /\ (0 < day (mkDate 484660) <= 2 ^ 53 ->
      fst (realToMauvelian (mkConverter (Some 736273) (Some (mkDate 484660))) 736273) = Ok (mkDate 484660)).
Proof.
  apply (conversions_at_reference 736273 (mkDate 484660)).
  rewrite Example.maxordinal_value. lia.
Defined.

(** For an AE reference (offset up to 2^53), realToMauvelian moves the
    reference Mauvelian date by the signed real-day delta through [addDays],
    and it preserves order: a later real date never gives an earlier
    Mauvelian date, and two real dates give the same one only when the
    earlier lands on offset 0 and the next day on offset 1. *)
Theorem realToMauvelian_shift_monotone (r : Z) (m : MauvelianDate) (r1 r2 : Z) :
  0 < day m <= 2 ^ 53 ->
  fst (realToMauvelian (mkConverter (Some r) (Some m)) r1) = Ok (addDays m (r1 - r))
  /\ (r1 < r2 ->
      day (addDays m (r1 - r)) <= day (addDays m (r2 - r))
      /\ (day (addDays m (r1 - r)) = day (addDays m (r2 - r)) ->
          day m + (r1 - r) = 0 /\ r2 = r1 + 1)).
Proof.
  intros Hm. split.
  - cbn [realToMauvelian ref_real ref_mauvelian fst]. unfold date_sub.
    rewrite Calendar.add_reconstruct, Calendar.reconstruct_pos by exact Hm.
    destruct m; reflexivity.
  - intros H12. rewrite !Calendar.addDays_day.
    destruct (Z.eqb_spec (day m + (r1 - r)) 0), (Z.eqb_spec (day m + (r2 - r)) 0); lia.
Qed.

Lemma realToMauvelian_shift_monotone_witness :
  fst (realToMauvelian (mkConverter (Some 736273) (Some (mkDate 484660))) 736279)
    = Ok (addDays (mkDate 484660) (736279 - 736273))
  /\ (736279 < 736280 ->
      day (addDays (mkDate 484660) (736279 - 736273)) <= day (addDays (mkDate 484660) (736280 - 736273))
      /\ (day (addDays (mkDate 484660) (736279 - 736273)) = day (addDays (mkDate 484660) (736280 - 736273)) ->
          day (mkDate 484660) + (736279 - 736273) = 0 /\ 736280 = 736279 + 1)).
Proof. apply (realToMauvelian_shift_monotone 736273 (mkDate 484660) 736279 736280). cbn. lia. Defined.
